(** * ContextContainer: the dependency-injection container of ReactCommon/utils

    A shallow embedding of [ReactCommon/utils/ContextContainer.h] and the
    properties of its three operations, [registerInstance], [getInstance]
    and [findInstance].

    The class keeps two hash maps, [instances_] (key to type-erased
    [std::shared_ptr<void>]) and, when [NDEBUG] is not defined,
    [typeHashes_] (key to [typeid(T).hash_code()]).  Every check of the
    class is a C [assert], so what an operation does depends on whether the
    translation unit is compiled with [NDEBUG]; the build mode is an explicit
    argument of every operation below. *)

From stdpp Require Import base option strings gmap.
From Stdlib Require Import NArith.

Set Default Proof Using "Type".

(** ** Outcomes of a member function

    A call returns, throws a C++ exception (the container is intact and the
    caller may catch it), stops the process through a failed [assert]
    (the message of the assertion is kept), or has undefined behaviour.
    The exception is the one that the class raises itself, by the [at] of
    its maps; copying a [T] and allocating are taken to succeed, so what a
    throwing copy constructor or [std::bad_alloc] would do is not part of
    this development. *)

Inductive exception : Set :=
  | out_of_range.

Inductive result (S A : Type) : Type :=
  | Returns (a : A) (s : S)
  | Throws (e : exception) (s : S)
  | AssertionFailed (msg : string)
  | UndefinedBehaviour.

Arguments Returns {S A} a s.
Arguments Throws {S A} e s.
Arguments AssertionFailed {S A} msg.
Arguments UndefinedBehaviour {S A}.

(** The state that is left when the call is over and the process is still
    running in a defined state. *)
Definition state_after {S A} (r : result S A) : option S :=
  match r with
  | Returns _ s | Throws _ s => Some s
  | AssertionFailed _ | UndefinedBehaviour => None
  end.

(** Is the outcome a failed assertion, whatever its message? *)
Definition is_fatal {S A} (r : result S A) : bool :=
  match r with
  | AssertionFailed _ => true
  | _ => false
  end.

(** What the caller sees of a call, the state apart. *)
Definition outcome {S A} (r : result S A) : result unit A :=
  match r with
  | Returns a _ => Returns a tt
  | Throws e _ => Throws e tt
  | AssertionFailed msg => AssertionFailed msg
  | UndefinedBehaviour => UndefinedBehaviour
  end.

(** ** The monad of member functions over a state [S] *)

Module M.
Definition t (S A : Type) : Type := S → result S A.

Definition ret {S A} (a : A) : t S A := λ s, Returns a s.

Definition bind {S A B} (m : t S A) (k : A → t S B) : t S B :=
  λ s, match m s with
       | Returns a s' => k a s'
       | Throws e s' => Throws e s'
       | AssertionFailed msg => AssertionFailed msg
       | UndefinedBehaviour => UndefinedBehaviour
       end.

Definition abort {S A} (msg : string) : t S A := λ _, AssertionFailed msg.
Definition undefined {S A} : t S A := λ _, UndefinedBehaviour.
End M.

Declare Scope cxx_scope.
Delimit Scope cxx_scope with cxx.
Notation "x <- c ;; k" := (M.bind c (λ x, k))
  (at level 100, c at next level, right associativity) : cxx_scope.
Notation "c ;; k" := (M.bind c (λ _, k))
  (at level 100, right associativity) : cxx_scope.
Local Open Scope cxx_scope.

(** [assert(cond && "msg")] from <cassert>: with [NDEBUG] the macro expands
    to nothing and [cond] is not even evaluated; without it a false [cond]
    aborts the process. *)
Definition assert {S} (NDEBUG : bool) (cond : M.t S bool) (msg : string)
  : M.t S unit :=
  if NDEBUG then M.ret tt
  else (b <- cond ;; if b : bool then M.ret tt else M.abort msg).

(** ** [better::map] *)

Module better.
Section map.
Context {V : Type}.

(** Modelled from the spec: [better::map], which [better/map.h] declares as
    an alias of a hash map with the interface of [std::unordered_map]; for
    the spec it is a mapping from unique string keys to values in which
    insertion order is irrelevant, hence a [gmap]. [find] gives an iterator:
    here the option, with [None] for [end()]. *)
Definition find (key : string) (m : gmap string V) : option V := m !! key.

(** Modelled from the spec: [at] of the same map, the value under the key;
    it throws [std::out_of_range] when the key has none. *)
Definition at_ (key : string) (m : gmap string V) : exception + V :=
  match m !! key with
  | Some v => inr v
  | None => inl out_of_range
  end.

(** Modelled from the spec: [insert] of the same map; keys are unique, and
    a key that is taken keeps its value. *)
Definition insert (key : string) (v : V) (m : gmap string V)
  : gmap string V :=
  match m !! key with
  | Some _ => m
  | None => <[key := v]> m
  end.
End map.
End better.

Definition is_end {V} (it : option V) : bool :=
  match it with None => true | Some _ => false end.

(** [size_t], the type of [std::type_info::hash_code()]. *)
Abbreviation size_t := N.

Definition msg_already_had : string :=
  "ContextContainer already had instance for given key.".
Definition msg_no_instance : string :=
  "ContextContainer doesn't have an instance for given key.".
Definition msg_different_type : string :=
  "ContextContainer stores an instance of different type for given key.".

(** ** The container *)

(** The C++ types that a program instantiates the member templates at:
    [type_info] names them (as [typeid(T)] does, with its equality), [El T]
    is the set of values of [T], and [hash_code T] stands for
    [typeid(T).hash_code()], which belongs to the C++ runtime. Values are
    mathematical values, so copy construction is the identity on them. *)
Class InstanceTypes (type_info : Type) : Type := {
  El : type_info → Type;
  hash_code : type_info → size_t
}.

Section ContextContainer.
Context {type_info : Type} `{EqDecision type_info, InstanceTypes type_info}.

(** [std::shared_ptr<void>] owning an object made by [std::make_shared<T>]:
    the static type is erased, the pointee keeps its dynamic type. *)
Record shared_ptr_void : Type := make_shared {
  pointee_type : type_info;
  pointee : El pointee_type
}.

(** The two maps of the class. The third data member, [mutex_], only
    orders concurrent calls; it is part of the [process] further down.
    [typeHashes_] is declared under [#ifndef NDEBUG]: with [NDEBUG] no
    member function mentions it. *)
Record ContextContainer : Type := {
  instances_ : gmap string shared_ptr_void;
  typeHashes_ : gmap string size_t
}.

(** A default-constructed container. *)
Definition empty_container : ContextContainer :=
  {| instances_ := ∅; typeHashes_ := ∅ |}.

Abbreviation Mem := (M.t ContextContainer).

Definition instances_find (key : string) : Mem (option shared_ptr_void) :=
  λ c, Returns (better.find key (instances_ c)) c.

Definition instances_at (key : string) : Mem shared_ptr_void :=
  λ c, match better.at_ key (instances_ c) with
       | inr p => Returns p c
       | inl e => Throws e c
       end.

Definition instances_insert (key : string) (p : shared_ptr_void) : Mem unit :=
  λ c, Returns tt {| instances_ := better.insert key p (instances_ c);
                     typeHashes_ := typeHashes_ c |}.

Definition typeHashes_at (key : string) : Mem size_t :=
  λ c, match better.at_ key (typeHashes_ c) with
       | inr h => Returns h c
       | inl e => Throws e c
       end.

Definition typeHashes_insert (key : string) (h : size_t) : Mem unit :=
  λ c, Returns tt {| instances_ := instances_ c;
                     typeHashes_ := better.insert key h (typeHashes_ c) |}.

(** [*std::static_pointer_cast<T>(p)], copied out by value. Reading the
    pointee through a pointer to another type is undefined behaviour. *)
Definition static_pointer_cast_deref (T : type_info) (p : shared_ptr_void)
  : Mem (El T) :=
  match decide (pointee_type p = T) with
  | left e => M.ret (eq_rect (pointee_type p) El (pointee p) T e)
  | right _ => M.undefined
  end.

(** [template <typename T>
     void registerInstance(T const &instance, std::string const &key) const].
    Its first statement, [std::unique_lock<better::shared_mutex> lock(mutex_)],
    is in [lock_taken_by] below, as are the locks of the two lookups. *)
Definition registerInstance (NDEBUG : bool) (T : type_info)
    (instance : El T) (key : string) : Mem unit :=
  assert NDEBUG
    (it <- instances_find key ;; M.ret (is_end it))
    msg_already_had ;;
  instances_insert key (make_shared T instance) ;;
  if NDEBUG then M.ret tt
  else typeHashes_insert key (hash_code T).

(** [template <typename T> T getInstance(std::string const &key) const] *)
Definition getInstance (NDEBUG : bool) (T : type_info) (key : string)
  : Mem (El T) :=
  assert NDEBUG
    (it <- instances_find key ;; M.ret (negb (is_end it)))
    msg_no_instance ;;
  assert NDEBUG
    (h <- typeHashes_at key ;; M.ret (N.eqb h (hash_code T)))
    msg_different_type ;;
  p <- instances_at key ;;
  static_pointer_cast_deref T p.

(** [template <typename T>
     better::optional<T> findInstance(std::string const &key) const] *)
Definition findInstance (NDEBUG : bool) (T : type_info) (key : string)
  : Mem (option (El T)) :=
  iterator <- instances_find key ;;
  match iterator with
  | None => M.ret None
  | Some second =>
      assert NDEBUG
        (h <- typeHashes_at key ;; M.ret (N.eqb h (hash_code T)))
        msg_different_type ;;
      v <- static_pointer_cast_deref T second ;;
      M.ret (Some v)
  end.

(** *** Histories of calls

    A client of the container is a sequence of calls. A call that throws
    leaves the container to the caller's handler; a failed assertion or
    undefined behaviour ends the history. *)

Inductive call : Type :=
  | Register (T : type_info) (instance : El T) (key : string)
  | Get (T : type_info) (key : string)
  | Find (T : type_info) (key : string).

Definition exec (NDEBUG : bool) (op : call) (c : ContextContainer)
  : option ContextContainer :=
  match op with
  | Register T instance key =>
      state_after (registerInstance NDEBUG T instance key c)
  | Get T key => state_after (getInstance NDEBUG T key c)
  | Find T key => state_after (findInstance NDEBUG T key c)
  end.

Fixpoint run (NDEBUG : bool) (history : list call) (c : ContextContainer)
  : option ContextContainer :=
  match history with
  | [] => Some c
  | op :: rest =>
      match exec NDEBUG op c with
      | Some c' => run NDEBUG rest c'
      | None => None
      end
  end.

Definition registers (key : string) (op : call) : bool :=
  match op with
  | Register _ _ key' => bool_decide (key' = key)
  | Get _ _ | Find _ _ => false
  end.

(** No call of the history registers under [key]. *)
Definition never_registered (key : string) (history : list call) : bool :=
  forallb (λ op, negb (registers key op)) history.

(** The container a client can hold: what a history made of an empty one. *)
Definition reachable (NDEBUG : bool) (c : ContextContainer) : Prop :=
  ∃ history, run NDEBUG history empty_container = Some c.

(** The two maps go together when [typeHashes_] exists: each key of
    [instances_] has the hash code of its pointee's type, and no other key
    has one. *)
Definition consistent (NDEBUG : bool) (c : ContextContainer) : Prop :=
  if NDEBUG then True
  else ∀ key, typeHashes_ c !! key
              = (λ p, hash_code (pointee_type p)) <$> instances_ c !! key.

(** A call that is over left the container as it found it. *)
Definition leaves_unchanged {A} (c : ContextContainer)
    (r : result ContextContainer A) : Prop :=
  match r with
  | Returns _ c' | Throws _ c' => c' = c
  | AssertionFailed _ | UndefinedBehaviour => True
  end.

(** The container after a registration under a free key. *)
Definition with_instance (NDEBUG : bool) (T : type_info) (instance : El T)
    (key : string) (c : ContextContainer) : ContextContainer :=
  {| instances_ := <[key := make_shared T instance]> (instances_ c);
     typeHashes_ := if NDEBUG then typeHashes_ c
                    else better.insert key (hash_code T) (typeHashes_ c) |}.

(** *** Concurrent callers

    Every member function starts by constructing a lock on [mutex_], which
    its destructor releases when the function is left, by return or by
    exception: [registerInstance] a [std::unique_lock], the two lookups a
    [std::shared_lock]. *)

Inductive lock_kind : Set :=
  | unique_lock
  | shared_lock.

Definition lock_taken_by (op : call) : lock_kind :=
  match op with
  | Register _ _ _ => unique_lock
  | Get _ _ | Find _ _ => shared_lock
  end.

Abbreviation thread := nat.

(** Modelled from the spec: [better::shared_mutex] of [better/mutex.h],
    which the spec takes as a given readers-writer lock, "a
    mutual-exclusion primitive allowing many concurrent readers or one
    exclusive writer, never both simultaneously". The state records who
    owns the mutex; an acquisition that would have to wait is [None]. *)
Record shared_mutex : Type := {
  exclusive_owner : option thread;
  shared_owners : gset thread
}.

Definition unowned : shared_mutex :=
  {| exclusive_owner := None; shared_owners := ∅ |}.

Definition acquire (k : lock_kind) (t : thread) (m : shared_mutex)
  : option shared_mutex :=
  match k, exclusive_owner m with
  | unique_lock, None =>
      if decide (shared_owners m = ∅)
      then Some {| exclusive_owner := Some t; shared_owners := ∅ |}
      else None
  | shared_lock, None =>
      Some {| exclusive_owner := None;
              shared_owners := {[t]} ∪ shared_owners m |}
  | _, Some _ => None
  end.

Definition release (k : lock_kind) (t : thread) (m : shared_mutex)
  : shared_mutex :=
  match k with
  | unique_lock =>
      {| exclusive_owner := None; shared_owners := shared_owners m |}
  | shared_lock =>
      {| exclusive_owner := exclusive_owner m;
         shared_owners := shared_owners m ∖ {[t]} |}
  end.

(** Where a thread is in a call of a member function: waiting in the
    constructor of its lock, or past it, in the body. A thread that is in
    no call has no entry. *)
Inductive phase : Type :=
  | Blocked (op : call)
  | Holding (op : call).

Record process : Type := {
  container : ContextContainer;
  mutex_ : shared_mutex;
  threads : gmap thread phase
}.

Definition start : process :=
  {| container := empty_container; mutex_ := unowned; threads := ∅ |}.

Inductive event : Type :=
  | Call (t : thread) (op : call)
  | Lock (t : thread)
  | Leave (t : thread).

(** One step of one thread; [None] when the thread cannot take it now.
    The body of a call acts on the container while the lock is held and
    is run as one step, together with the release of the lock. *)
Definition step (NDEBUG : bool) (e : event) (σ : process) : option process :=
  match e with
  | Call t op =>
      match threads σ !! t with
      | None => Some {| container := container σ; mutex_ := mutex_ σ;
                        threads := <[t := Blocked op]> (threads σ) |}
      | Some _ => None
      end
  | Lock t =>
      match threads σ !! t with
      | Some (Blocked op) =>
          match acquire (lock_taken_by op) t (mutex_ σ) with
          | Some m => Some {| container := container σ; mutex_ := m;
                              threads := <[t := Holding op]> (threads σ) |}
          | None => None
          end
      | _ => None
      end
  | Leave t =>
      match threads σ !! t with
      | Some (Holding op) =>
          match exec NDEBUG op (container σ) with
          | Some c => Some {| container := c;
                              mutex_ := release (lock_taken_by op) t (mutex_ σ);
                              threads := delete t (threads σ) |}
          | None => None
          end
      | _ => None
      end
  end.

Fixpoint schedule (NDEBUG : bool) (es : list event) (σ : process)
  : option process :=
  match es with
  | [] => Some σ
  | e :: rest =>
      match step NDEBUG e σ with
      | Some σ' => schedule NDEBUG rest σ'
      | None => None
      end
  end.

(** The thread is in the body of a call that took the lock as [k]. *)
Definition holds (σ : process) (t : thread) (k : lock_kind) : Prop :=
  ∃ op, threads σ !! t = Some (Holding op) ∧ lock_taken_by op = k.

Definition owns (k : lock_kind) (t : thread) (m : shared_mutex) : Prop :=
  match k with
  | unique_lock => exclusive_owner m = Some t
  | shared_lock => t ∈ shared_owners m
  end.

(** The mutex and the threads agree: a thread in a body owns the mutex
    in the way of its lock, and an exclusive owner is a thread in the body
    of a call that took a [std::unique_lock], with no shared owner
    beside it. *)
Definition lock_invariant (σ : process) : Prop :=
  (∀ t op, threads σ !! t = Some (Holding op) →
           owns (lock_taken_by op) t (mutex_ σ))
  ∧ (∀ t, exclusive_owner (mutex_ σ) = Some t →
          shared_owners (mutex_ σ) = ∅ ∧ holds σ t unique_lock).

(** *** What a history registers *)

(** The instance of the first call of the history that registers under
    [key]. *)
Fixpoint first_registered (key : string) (history : list call)
  : option shared_ptr_void :=
  match history with
  | [] => None
  | Register T instance key' :: rest =>
      if bool_decide (key' = key) then Some (make_shared T instance)
      else first_registered key rest
  | (Get _ _ | Find _ _) :: rest => first_registered key rest
  end.

(** The keys of the registrations of a history, in order, with
    repetitions. *)
Fixpoint registered_keys (history : list call) : list string :=
  match history with
  | [] => []
  | Register _ _ key :: rest => key :: registered_keys rest
  | (Get _ _ | Find _ _) :: rest => registered_keys rest
  end.

(** The owners of the mutex are threads in a body: the converse of the
    first half of [lock_invariant]. *)
Definition owners_are_inside (σ : process) : Prop :=
  (∀ t, t ∈ shared_owners (mutex_ σ) → holds σ t shared_lock)
  ∧ (∀ t, exclusive_owner (mutex_ σ) = Some t → holds σ t unique_lock).

End ContextContainer.

(** ** Some C++ types

    A small family of instance types for the examples: [int], [bool] and
    [std::string], with hash codes as one runtime could give. *)

Inductive cxx_type : Set :=
  | cxx_int
  | cxx_bool
  | cxx_string.

Global Instance cxx_type_eq_dec : EqDecision cxx_type.
Proof. solve_decision. Defined.

Definition cxx_value (T : cxx_type) : Type :=
  match T with
  | cxx_int => Z
  | cxx_bool => bool
  | cxx_string => string
  end.

Definition cxx_hash_code (T : cxx_type) : size_t :=
  match T with
  | cxx_int => 6253375586064260614
  | cxx_bool => 10838281452030117757
  | cxx_string => 17832376326615713975
  end.

Global Instance cxx_types : InstanceTypes cxx_type :=
  {| El := cxx_value; hash_code := cxx_hash_code |}.

(** A runtime that follows the letter of the standard only: every type
    has the same hash code. *)
Definition flat_types : InstanceTypes cxx_type :=
  {| El := cxx_value; hash_code := λ _, 0%N |}.

(** The bootstrap of the examples: three registrations. *)
Definition bootstrap : list call :=
  [ Register cxx_int 1%Z "A";
    Register cxx_string "x" "B";
    Register cxx_bool true "C" ].

(** The container that the bootstrap leaves. *)
Definition booted (NDEBUG : bool) : ContextContainer :=
  with_instance NDEBUG cxx_bool true "C"
    (with_instance NDEBUG cxx_string "x" "B"
       (with_instance NDEBUG cxx_int 1%Z "A" empty_container)).

(** A container with one [int] under ["A"]. *)
Definition one_int (NDEBUG : bool) : ContextContainer :=
  with_instance NDEBUG cxx_int 1%Z "A" empty_container.

(** Three threads have called: thread 0 is in the body of a
    [findInstance], threads 1 and 2 wait for their locks, for a
    [getInstance] and for a [registerInstance]. *)
Definition three_callers : list event :=
  [ Call 0 (Find cxx_int "A");
    Call 1 (Get cxx_bool "C");
    Call 2 (Register cxx_int 2%Z "D");
    Lock 0 ].

Definition one_lookup_inside : process :=
  {| container := empty_container;
     mutex_ := {| exclusive_owner := None; shared_owners := {[ 0 ]} |};
     threads := {[ 0 := Holding (Find cxx_int "A");
                   1 := Blocked (Get cxx_bool "C");
                   2 := Blocked (Register cxx_int 2%Z "D") ]} |}.

(** The lookup of thread 0 has left its body; threads 1 and 2 still
    wait. *)
Definition lookup_left : list event := three_callers ++ [Leave 0].

Definition two_waiting : process :=
  {| container := empty_container;
     mutex_ := unowned;
     threads := {[ 1 := Blocked (Get cxx_bool "C");
                   2 := Blocked (Register cxx_int 2%Z "D") ]} |}.

(** The bootstrap, then a registration under the key ["A"] again, a lookup
    of a key without instance and a lookup of ["B"]. *)
Definition client : list call :=
  bootstrap ++ [ Register cxx_int 5%Z "A"; Get cxx_int "Z";
                 Find cxx_string "B" ].

(** ** Proofs *)

Section properties.
Context {type_info : Type} `{EqDecision type_info, InstanceTypes type_info}.

(** *** Basic facts on the primitives *)

Lemma insert_taken {V} (key : string) (v w : V) (m : gmap string V) :
  m !! key = Some w → better.insert key v m = m.
Proof. intros Hk. unfold better.insert. by rewrite Hk. Qed.

Lemma insert_free {V} (key : string) (v : V) (m : gmap string V) :
  m !! key = None → better.insert key v m = <[key := v]> m.
Proof. intros Hk. unfold better.insert. by rewrite Hk. Qed.

Lemma insert_keeps {V} (key key' : string) (v w : V) (m : gmap string V) :
  m !! key' = Some w → better.insert key v m !! key' = Some w.
Proof.
  intros Hk. unfold better.insert.
  destruct (m !! key) as [u|] eqn:Hkey; [done|].
  destruct (decide (key = key')) as [->|Hne]; [congruence|].
  by rewrite lookup_insert_ne.
Qed.

Lemma cast_same (T : type_info) (v : El T) (c : ContextContainer) :
  static_pointer_cast_deref T (make_shared T v) c = Returns v c.
Proof.
  unfold static_pointer_cast_deref; simpl.
  destruct (decide (T = T)) as [e|Hne]; [|done].
  by rewrite (proof_irrel e eq_refl).
Qed.

Lemma cast_other (T : type_info) (p : shared_ptr_void) (c : ContextContainer) :
  pointee_type p ≠ T →
  static_pointer_cast_deref T p c = UndefinedBehaviour.
Proof.
  intros Hne. unfold static_pointer_cast_deref.
  by destruct (decide (pointee_type p = T)).
Qed.

Lemma cast_leaves (T : type_info) (p : shared_ptr_void) (c : ContextContainer) :
  (∃ v, static_pointer_cast_deref T p c = Returns v c)
  ∨ static_pointer_cast_deref T p c = UndefinedBehaviour.
Proof.
  unfold static_pointer_cast_deref.
  destruct (decide (pointee_type p = T)); [left; by eexists | by right].
Qed.

(** *** The operations, case by case *)

Lemma registerInstance_free NDEBUG T (v : El T) key c :
  instances_ c !! key = None →
  registerInstance NDEBUG T v key c
  = Returns tt (with_instance NDEBUG T v key c).
Proof.
  intros Hk.
  unfold registerInstance, with_instance, assert, M.bind, M.ret,
    instances_find, instances_insert, typeHashes_insert, better.find.
  destruct NDEBUG; simpl; rewrite ?Hk; simpl;
    by rewrite (insert_free _ _ _ Hk).
Qed.

Lemma registerInstance_taken NDEBUG T (v : El T) key c p :
  instances_ c !! key = Some p →
  registerInstance NDEBUG T v key c
  = if NDEBUG then Returns tt c else AssertionFailed msg_already_had.
Proof.
  intros Hk.
  unfold registerInstance, assert, M.bind, M.ret, M.abort,
    instances_find, instances_insert, better.find.
  destruct NDEBUG; simpl; rewrite ?Hk; simpl; [|done].
  rewrite (insert_taken _ _ _ _ Hk). by destruct c.
Qed.

Lemma getInstance_absent NDEBUG T key c :
  instances_ c !! key = None →
  getInstance NDEBUG T key c
  = if NDEBUG then Throws out_of_range c
    else AssertionFailed msg_no_instance.
Proof.
  intros Hk.
  unfold getInstance, assert, M.bind, M.ret, M.abort,
    instances_find, instances_at, better.find, better.at_.
  destruct NDEBUG; simpl; by rewrite Hk.
Qed.

Lemma getInstance_present NDEBUG T key c p :
  consistent NDEBUG c →
  instances_ c !! key = Some p →
  getInstance NDEBUG T key c
  = if NDEBUG || N.eqb (hash_code (pointee_type p)) (hash_code T)
    then static_pointer_cast_deref T p c
    else AssertionFailed msg_different_type.
Proof.
  intros Hc Hk.
  unfold getInstance, assert, M.bind, M.ret, M.abort,
    instances_find, instances_at, typeHashes_at, better.find, better.at_.
  destruct NDEBUG; simpl; rewrite ?Hk; simpl; [done|].
  rewrite (Hc key), Hk; simpl.
  destruct (N.eqb _ _); [|done]. by rewrite Hk.
Qed.

Lemma findInstance_absent NDEBUG T key c :
  instances_ c !! key = None →
  findInstance NDEBUG T key c = Returns None c.
Proof.
  intros Hk.
  unfold findInstance, M.bind, M.ret, instances_find, better.find.
  by rewrite Hk.
Qed.

Lemma findInstance_present NDEBUG T key c p :
  consistent NDEBUG c →
  instances_ c !! key = Some p →
  findInstance NDEBUG T key c
  = if NDEBUG || N.eqb (hash_code (pointee_type p)) (hash_code T)
    then (v <- static_pointer_cast_deref T p ;; M.ret (Some v)) c
    else AssertionFailed msg_different_type.
Proof.
  intros Hc Hk.
  unfold findInstance, assert, M.bind, M.ret, M.abort,
    instances_find, typeHashes_at, better.find, better.at_.
  rewrite Hk. destruct NDEBUG; simpl; [done|].
  rewrite (Hc key), Hk; simpl.
  by destruct (N.eqb _ _).
Qed.

(** *** Reads do not write *)

Lemma getInstance_leaves NDEBUG T key c :
  leaves_unchanged c (getInstance NDEBUG T key c).
Proof.
  unfold getInstance, assert, M.bind, M.ret, M.abort,
    instances_find, instances_at, typeHashes_at, better.find, better.at_.
  destruct NDEBUG; simpl.
  - destruct (instances_ c !! key) as [p|]; simpl; [|done].
    by destruct (cast_leaves T p c) as [[v ->]| ->].
  - destruct (instances_ c !! key) as [p|] eqn:Hk; simpl; [|done].
    destruct (typeHashes_ c !! key) as [h|]; simpl; [|done].
    destruct (N.eqb h (hash_code T)); simpl; [|done].
    rewrite Hk.
    by destruct (cast_leaves T p c) as [[v ->]| ->].
Qed.

Lemma findInstance_leaves NDEBUG T key c :
  leaves_unchanged c (findInstance NDEBUG T key c).
Proof.
  unfold findInstance, assert, M.bind, M.abort,
    instances_find, typeHashes_at, better.find, better.at_.
  destruct (instances_ c !! key) as [p|]; simpl; [|done].
  destruct NDEBUG; simpl.
  - by destruct (cast_leaves T p c) as [[v ->]| ->].
  - destruct (typeHashes_ c !! key) as [h|]; simpl; [|done].
    destruct (N.eqb h (hash_code T)); simpl; [|done].
    by destruct (cast_leaves T p c) as [[v ->]| ->].
Qed.

Lemma leaves_state_after {A} c (r : result ContextContainer A) c' :
  leaves_unchanged c r → state_after r = Some c' → c' = c.
Proof. destruct r; simpl; intros; simplify_eq; done. Qed.

(** A call changes the container at most by one registration under a
    free key. *)
Lemma exec_cases NDEBUG op c c' :
  exec NDEBUG op c = Some c' →
  c' = c
  ∨ ∃ T v key, op = Register T v key ∧ instances_ c !! key = None
               ∧ c' = with_instance NDEBUG T v key c.
Proof.
  destruct op as [T v key|T key|T key]; simpl; intros Hex.
  - destruct (instances_ c !! key) as [p|] eqn:Hk.
    + rewrite (registerInstance_taken _ _ _ _ _ _ Hk) in Hex.
      destruct NDEBUG; simpl in Hex; simplify_eq. by left.
    + rewrite (registerInstance_free _ _ _ _ _ Hk) in Hex.
      simpl in Hex; simplify_eq. right. by exists T, v, key.
  - left. eapply leaves_state_after; [apply getInstance_leaves|done].
  - left. eapply leaves_state_after; [apply findInstance_leaves|done].
Qed.

(** *** Entries stay *)

Lemma exec_keeps NDEBUG op c c' key p :
  exec NDEBUG op c = Some c' →
  instances_ c !! key = Some p → instances_ c' !! key = Some p.
Proof.
  intros Hex Hk.
  destruct (exec_cases _ _ _ _ Hex) as [->|(T & v & key' & _ & Hfree & ->)];
    [done|].
  simpl. rewrite lookup_insert_ne; [done|]. congruence.
Qed.

Lemma run_keeps NDEBUG history c c' key p :
  run NDEBUG history c = Some c' →
  instances_ c !! key = Some p → instances_ c' !! key = Some p.
Proof.
  revert c. induction history as [|op rest IH]; simpl; intros c Hrun Hk.
  - by simplify_eq.
  - destruct (exec NDEBUG op c) as [c1|] eqn:Hex; [|done].
    eapply IH; [done|]. by eapply exec_keeps.
Qed.

Lemma exec_untouched NDEBUG op c c' key :
  exec NDEBUG op c = Some c' →
  registers key op = false →
  instances_ c' !! key = instances_ c !! key.
Proof.
  intros Hex Hreg.
  destruct (exec_cases _ _ _ _ Hex) as [->|(T & v & key' & -> & _ & ->)];
    [done|].
  simpl in *. apply bool_decide_eq_false in Hreg.
  by rewrite lookup_insert_ne.
Qed.

Lemma run_untouched NDEBUG history c c' key :
  run NDEBUG history c = Some c' →
  never_registered key history = true →
  instances_ c' !! key = instances_ c !! key.
Proof.
  revert c. induction history as [|op rest IH]; simpl; intros c Hrun Hnev.
  - by simplify_eq.
  - destruct (exec NDEBUG op c) as [c1|] eqn:Hex; [|done].
    apply andb_true_iff in Hnev as [Hop Hrest].
    apply negb_true_iff in Hop.
    rewrite (IH _ Hrun Hrest). by eapply exec_untouched.
Qed.

(** *** The two maps stay together *)

Lemma empty_consistent NDEBUG : consistent NDEBUG empty_container.
Proof.
  destruct NDEBUG; simpl; [done|]. intros key. by rewrite !lookup_empty.
Qed.

Lemma with_instance_consistent NDEBUG T (v : El T) key c :
  consistent NDEBUG c →
  instances_ c !! key = None →
  consistent NDEBUG (with_instance NDEBUG T v key c).
Proof.
  destruct NDEBUG; simpl; [done|]. intros Hc Hfree key'.
  assert (typeHashes_ c !! key = None) as Hh by (by rewrite Hc, Hfree).
  rewrite (insert_free _ _ _ Hh).
  destruct (decide (key = key')) as [->|Hne].
  - by rewrite !lookup_insert_eq.
  - rewrite !lookup_insert_ne by done. apply Hc.
Qed.

Lemma exec_consistent NDEBUG op c c' :
  consistent NDEBUG c → exec NDEBUG op c = Some c' → consistent NDEBUG c'.
Proof.
  intros Hc Hex.
  destruct (exec_cases _ _ _ _ Hex) as [->|(T & v & key & _ & Hfree & ->)];
    [done|].
  by apply with_instance_consistent.
Qed.

Lemma run_consistent NDEBUG history c c' :
  consistent NDEBUG c → run NDEBUG history c = Some c' →
  consistent NDEBUG c'.
Proof.
  revert c. induction history as [|op rest IH]; simpl; intros c Hc Hrun.
  - by simplify_eq.
  - destruct (exec NDEBUG op c) as [c1|] eqn:Hex; [|done].
    eapply IH; [|done]. by eapply exec_consistent.
Qed.

Lemma reachable_consistent NDEBUG c :
  reachable NDEBUG c → consistent NDEBUG c.
Proof.
  intros [history Hrun].
  eapply run_consistent; [apply empty_consistent|done].
Qed.

Lemma never_registered_absent NDEBUG history c key :
  run NDEBUG history empty_container = Some c →
  never_registered key history = true →
  instances_ c !! key = None.
Proof.
  intros Hrun Hnev. by rewrite (run_untouched _ _ _ _ _ Hrun Hnev).
Qed.

Lemma registerInstance_returned NDEBUG T (v : El T) key c c1 :
  registerInstance NDEBUG T v key c = Returns tt c1 →
  ∃ p, instances_ c1 !! key = Some p.
Proof.
  intros Hreg. destruct (instances_ c !! key) as [p|] eqn:Hk.
  - rewrite (registerInstance_taken _ _ _ _ _ _ Hk) in Hreg.
    destruct NDEBUG; simplify_eq. by exists p.
  - rewrite (registerInstance_free _ _ _ _ _ Hk) in Hreg. simplify_eq.
    eexists. simpl. apply lookup_insert_eq.
Qed.

Lemma run_established NDEBUG history c0 c key p :
  run NDEBUG history c0 = Some c →
  instances_ c !! key = Some p →
  instances_ c0 !! key = Some p
  ∨ ∃ T v, p = make_shared T v ∧ In (Register T v key) history.
Proof.
  revert c0. induction history as [|op rest IH]; simpl; intros c0 Hrun Hk.
  - simplify_eq. by left.
  - destruct (exec NDEBUG op c0) as [c1|] eqn:Hex; [|done].
    destruct (IH _ Hrun Hk) as [Hk1|(T & v & -> & Hin)];
      [|right; exists T, v; by auto].
    destruct (exec_cases _ _ _ _ Hex) as [->|(T & v & key' & -> & _ & ->)];
      [by left|].
    simpl in Hk1. destruct (decide (key' = key)) as [->|Hne].
    + rewrite lookup_insert_eq in Hk1. simplify_eq.
      right. exists T, v. by auto.
    + rewrite lookup_insert_ne in Hk1 by done. by left.
Qed.

(** A registered instance is got back, by either lookup. *)
Lemma lookups_after_registration NDEBUG T (v : El T) key c :
  consistent NDEBUG c →
  instances_ c !! key = None →
  let c' := with_instance NDEBUG T v key c in
  getInstance NDEBUG T key c' = Returns v c'
  ∧ findInstance NDEBUG T key c' = Returns (Some v) c'.
Proof.
  intros Hc Hfree c'.
  assert (consistent NDEBUG c') as Hc'
    by by apply with_instance_consistent.
  assert (instances_ c' !! key = Some (make_shared T v)) as Hk
    by apply lookup_insert_eq.
  rewrite (getInstance_present _ _ _ _ _ Hc' Hk),
    (findInstance_present _ _ _ _ _ Hc' Hk); simpl.
  rewrite N.eqb_refl, orb_true_r.
  unfold M.bind. by rewrite cast_same.
Qed.

(** *** The lock *)

Lemma start_invariant : lock_invariant start.
Proof. split; simpl; [intros t op Ht|intros t Ht]; [|done].
  by rewrite lookup_empty in Ht. Qed.

Lemma step_invariant NDEBUG e σ σ' :
  lock_invariant σ → step NDEBUG e σ = Some σ' → lock_invariant σ'.
Proof.
  intros [Hown Hexcl] Hstep. destruct e as [t op|t|t]; simpl in Hstep.
  - (* the thread enters a call *)
    destruct (threads σ !! t) as [ph|] eqn:Ht; [done|]. simplify_eq.
    split; simpl.
    + intros t' op' Ht'.
      destruct (decide (t = t')) as [->|Hne];
        [by rewrite lookup_insert_eq in Ht'|].
      rewrite lookup_insert_ne in Ht' by done. by apply Hown.
    + intros t0 Ht0. destruct (Hexcl _ Ht0) as [Hsh (op0 & Hop0 & Hk0)].
      split; [done|]. exists op0. split; [|done]. simpl.
      rewrite lookup_insert_ne; [done|]. congruence.
  - (* the thread gets its lock *)
    destruct (threads σ !! t) as [[op|op]|] eqn:Ht; try done.
    destruct (acquire (lock_taken_by op) t (mutex_ σ)) as [m|] eqn:Hacq;
      [|done].
    simplify_eq. unfold acquire in Hacq.
    destruct (exclusive_owner (mutex_ σ)) as [t0|] eqn:Hex;
      [by destruct (lock_taken_by op)|].
    assert (∀ t' op', threads σ !! t' = Some (Holding op') →
              lock_taken_by op' = shared_lock ∧ t' ∈ shared_owners (mutex_ σ))
      as Hreaders.
    { intros t' op' Ht'. specialize (Hown _ _ Ht').
      destruct (lock_taken_by op'); simpl in Hown; [congruence|done]. }
    destruct (lock_taken_by op) eqn:Hk.
    + destruct (decide (shared_owners (mutex_ σ) = ∅)) as [Hsh|];
        [|done].
      simplify_eq. split; simpl.
      * intros t' op' Ht'. destruct (decide (t = t')) as [->|Hne].
        -- rewrite lookup_insert_eq in Ht'. simplify_eq. by rewrite Hk.
        -- rewrite lookup_insert_ne in Ht' by done.
           destruct (Hreaders _ _ Ht') as [_ Hin].
           rewrite Hsh in Hin. by apply not_elem_of_empty in Hin.
      * intros t0 Ht0. simplify_eq. split; [done|].
        exists op. simpl. by rewrite lookup_insert_eq.
    + simplify_eq. split; simpl; [|done].
      intros t' op' Ht'. destruct (decide (t = t')) as [->|Hne].
      * rewrite lookup_insert_eq in Ht'. simplify_eq. rewrite Hk. simpl.
        apply elem_of_union_l. by apply elem_of_singleton.
      * rewrite lookup_insert_ne in Ht' by done.
        destruct (Hreaders _ _ Ht') as [-> Hin]. simpl.
        by apply elem_of_union_r.
  - (* the thread runs the body and leaves *)
    destruct (threads σ !! t) as [[op|op]|] eqn:Ht; try done.
    destruct (exec NDEBUG op (container σ)) as [c|]; [|done].
    simplify_eq. pose proof (Hown _ _ Ht) as Hmine. split; simpl.
    + intros t' op' Ht'. destruct (decide (t = t')) as [->|Hne];
        [by rewrite lookup_delete_eq in Ht'|].
      rewrite lookup_delete_ne in Ht' by done.
      specialize (Hown _ _ Ht').
      destruct (lock_taken_by op), (lock_taken_by op');
        simpl in *; [congruence|done|done|].
      apply elem_of_difference. split; [done|].
      rewrite elem_of_singleton. congruence.
    + intros t0 Ht0.
      destruct (lock_taken_by op) eqn:Hk; simpl in *; [done|].
      destruct (Hexcl _ Ht0) as [Hsh (op0 & Hop0 & Hk0)].
      rewrite Hsh in Hmine. by apply not_elem_of_empty in Hmine.
Qed.

Lemma schedule_invariant NDEBUG es σ σ' :
  lock_invariant σ → schedule NDEBUG es σ = Some σ' → lock_invariant σ'.
Proof.
  revert σ. induction es as [|e rest IH]; simpl; intros σ Hinv Hrun.
  - by simplify_eq.
  - destruct (step NDEBUG e σ) as [σ1|] eqn:Hstep; [|done].
    eapply IH; [|done]. by eapply step_invariant.
Qed.

(** What the threads did to the container is what one client would have
    done with the calls in the order in which they left their bodies. *)
Lemma schedule_is_a_history NDEBUG es σ σ' :
  schedule NDEBUG es σ = Some σ' →
  ∃ history, run NDEBUG history (container σ) = Some (container σ').
Proof.
  revert σ. induction es as [|e rest IH]; simpl; intros σ Hrun.
  - simplify_eq. by exists [].
  - destruct (step NDEBUG e σ) as [σ1|] eqn:Hstep; [|done].
    destruct (IH _ Hrun) as [history Hhist].
    destruct e as [t op|t|t]; simpl in Hstep.
    + destruct (threads σ !! t); simplify_eq. by exists history.
    + destruct (threads σ !! t) as [[op|op]|]; try done.
      destruct (acquire _ _ _); simplify_eq. by exists history.
    + destruct (threads σ !! t) as [[op|op]|]; try done.
      destruct (exec NDEBUG op (container σ)) as [c|] eqn:Hex; simplify_eq.
      exists (op :: history). simpl. by rewrite Hex.
Qed.

Lemma writer_is_alone σ t1 t2 k :
  lock_invariant σ →
  holds σ t1 unique_lock → holds σ t2 k → t2 = t1.
Proof.
  intros [Hown Hexcl] (op1 & H1 & Hk1) (op2 & H2 & Hk2).
  pose proof (Hown _ _ H1) as Ho1. rewrite Hk1 in Ho1. simpl in Ho1.
  pose proof (Hown _ _ H2) as Ho2. rewrite Hk2 in Ho2.
  destruct (Hexcl _ Ho1) as [Hsh _].
  destruct k; simpl in Ho2; [congruence|].
  rewrite Hsh in Ho2. by apply not_elem_of_empty in Ho2.
Qed.

Lemma lock_waits NDEBUG σ t1 k t2 op :
  lock_invariant σ →
  holds σ t1 k →
  threads σ !! t2 = Some (Blocked op) →
  k = unique_lock ∨ lock_taken_by op = unique_lock →
  step NDEBUG (Lock t2) σ = None.
Proof.
  intros [Hown Hexcl] (op1 & H1 & Hk1) H2 Hor. simpl. rewrite H2.
  pose proof (Hown _ _ H1) as Ho1. rewrite Hk1 in Ho1.
  unfold acquire. destruct k; simpl in Ho1.
  - rewrite Ho1. by destruct (lock_taken_by op).
  - destruct Hor as [?| ->]; [done|].
    destruct (exclusive_owner (mutex_ σ)); [done|].
    destruct (decide (shared_owners (mutex_ σ) = ∅)) as [Hsh|]; [|done].
    rewrite Hsh in Ho1. by apply not_elem_of_empty in Ho1.
Qed.

Lemma reader_gets_in NDEBUG σ t op :
  lock_invariant σ →
  threads σ !! t = Some (Blocked op) →
  lock_taken_by op = shared_lock →
  (∀ t', ¬ holds σ t' unique_lock) →
  ∃ σ', step NDEBUG (Lock t) σ = Some σ'
        ∧ holds σ' t shared_lock
        ∧ ∀ t', holds σ t' shared_lock → holds σ' t' shared_lock.
Proof.
  intros [Hown Hexcl] Ht Hk Hnow. simpl. rewrite Ht, Hk. unfold acquire.
  destruct (exclusive_owner (mutex_ σ)) as [t0|] eqn:Hex.
  { destruct (Hexcl _ eq_refl) as [_ Hw]. by destruct (Hnow t0). }
  eexists. split; [done|]. split.
  - exists op. simpl. by rewrite lookup_insert_eq.
  - intros t' (op' & Ht' & Hk'). exists op'. split; [|done]. simpl.
    rewrite lookup_insert_ne; [done|]. congruence.
Qed.

(** ** The properties of the container *)

(** C1. Round trip: when no call of the history has registered under
    [key], [registerInstance(v, key)] returns, and [getInstance<T>(key)]
    on the container it leaves returns [v] itself, the value of the copy
    the container made, in both build modes. *)
Theorem register_then_get NDEBUG history c T (v : El T) key :
  run NDEBUG history empty_container = Some c →
  never_registered key history = true →
  let c' := with_instance NDEBUG T v key c in
  registerInstance NDEBUG T v key c = Returns tt c'
  ∧ getInstance NDEBUG T key c' = Returns v c'.
Proof.
  intros Hrun Hnev c'.
  pose proof (never_registered_absent _ _ _ _ Hrun Hnev) as Hfree.
  split; [by apply registerInstance_free|].
  eapply lookups_after_registration; [|done].
  eapply run_consistent; [apply empty_consistent|done].
Qed.

(** C2, as amended. After a first [registerInstance(v1, key)] returned,
    and whatever calls came in between, a second
    [registerInstance(v2, key)] fails the assertion "already had instance"
    when assertions are compiled in, and with [NDEBUG] returns with the
    container as it was: in no build mode is the stored value replaced. *)
Theorem second_registration NDEBUG T1 (v1 : El T1) key c c1 later c2
    T2 (v2 : El T2) :
  registerInstance NDEBUG T1 v1 key c = Returns tt c1 →
  run NDEBUG later c1 = Some c2 →
  registerInstance NDEBUG T2 v2 key c2
  = if NDEBUG then Returns tt c2 else AssertionFailed msg_already_had.
Proof.
  intros Hreg Hrun.
  destruct (registerInstance_returned _ _ _ _ _ _ Hreg) as [p Hk].
  eapply registerInstance_taken, run_keeps; done.
Qed.

(** C3, as amended. Type validation compares hash codes: with assertions
    compiled in, once [registerInstance] stored an instance of type [A]
    under [key], a lookup of [key] at a type [B] whose hash code is not that
    of [A], by [getInstance<B>] or by [findInstance<B>], fails the assertion
    "stores an instance of different type". *)
Theorem lookup_at_another_type history c A (v : El A) key c1 later c2 B :
  run false history empty_container = Some c →
  registerInstance false A v key c = Returns tt c1 →
  run false later c1 = Some c2 →
  hash_code A ≠ hash_code B →
  getInstance false B key c2 = AssertionFailed msg_different_type
  ∧ findInstance false B key c2 = AssertionFailed msg_different_type.
Proof.
  intros Hrun Hreg Hlater HAB.
  assert (consistent false c) as Hc
    by (eapply run_consistent; [apply empty_consistent|done]).
  destruct (instances_ c !! key) as [p|] eqn:Hk.
  { by rewrite (registerInstance_taken _ _ _ _ _ _ Hk) in Hreg. }
  rewrite (registerInstance_free _ _ _ _ _ Hk) in Hreg. simplify_eq.
  pose proof (with_instance_consistent false A v key c Hc Hk) as Hc1.
  pose proof (run_consistent _ _ _ _ Hc1 Hlater) as Hc2.
  assert (instances_ c2 !! key = Some (make_shared A v)) as Hk2.
  { eapply run_keeps; [done|]. apply lookup_insert_eq. }
  rewrite (getInstance_present _ _ _ _ _ Hc2 Hk2),
    (findInstance_present _ _ _ _ _ Hc2 Hk2); simpl.
  apply N.eqb_neq in HAB. by rewrite HAB.
Qed.

(** C4, as amended. [getInstance<T>(key)] never returns a value when no
    call has registered under [key], and it leaves the container as it
    was: with assertions compiled in it fails the assertion "doesn't have
    an instance"; with [NDEBUG] the map's [at] throws
    [std::out_of_range]. *)
Theorem get_never_registered NDEBUG history c T key :
  run NDEBUG history empty_container = Some c →
  never_registered key history = true →
  getInstance NDEBUG T key c
  = if NDEBUG then Throws out_of_range c
    else AssertionFailed msg_no_instance.
Proof.
  intros Hrun Hnev.
  by eapply getInstance_absent, never_registered_absent.
Qed.

(** C5. [findInstance<T>(key)] returns the empty optional, in both build
    modes, when no call of the history has registered under [key]: no
    value, no assertion failure, no exception. *)
Theorem find_never_registered NDEBUG history c T key :
  run NDEBUG history empty_container = Some c →
  never_registered key history = true →
  findInstance NDEBUG T key c = Returns None c.
Proof.
  intros Hrun Hnev.
  by eapply findInstance_absent, never_registered_absent.
Qed.

(** C6. An entry of [instances_] was put there by a registration under
    its key, and it is there with the same value after every further
    history of calls: no call replaces or removes it, so a key goes from
    absent to present once and then stays as it is. *)
Theorem entries_are_final NDEBUG before c key p after c' :
  run NDEBUG before empty_container = Some c →
  instances_ c !! key = Some p →
  run NDEBUG after c = Some c' →
  (∃ T v, p = make_shared T v ∧ In (Register T v key) before)
  ∧ instances_ c' !! key = Some p.
Proof.
  intros Hbefore Hk Hafter. split.
  - destruct (run_established _ _ _ _ _ _ Hbefore Hk) as [Hempty|Hin];
      [|done].
    simpl in Hempty. by rewrite lookup_empty in Hempty.
  - by eapply run_keeps.
Qed.

(** C7. [getInstance] and [findInstance] only read: whenever the call is
    over, by return or by exception, [instances_] and [typeHashes_] are
    what they were before. *)
Theorem lookups_only_read NDEBUG T key c :
  leaves_unchanged c (getInstance NDEBUG T key c)
  ∧ leaves_unchanged c (findInstance NDEBUG T key c).
Proof. split; [apply getInstance_leaves|apply findInstance_leaves]. Qed.

(** C8. [insert] does not overwrite. When [key] has an instance (and a
    hash code), neither [instances_.insert] nor [typeHashes_.insert]
    changes the container, and [registerInstance] under [key] either
    returns with the container as it was ([NDEBUG]) or stops at its
    assertion: the first registered value stays in both build modes. *)
Theorem first_registration_stays NDEBUG c key p T (v : El T) :
  instances_ c !! key = Some p →
  instances_insert key (make_shared T v) c = Returns tt c
  ∧ (is_Some (typeHashes_ c !! key) →
     typeHashes_insert key (hash_code T) c = Returns tt c)
  ∧ registerInstance NDEBUG T v key c
    = (if NDEBUG then Returns tt c else AssertionFailed msg_already_had)
  ∧ ∀ c', state_after (registerInstance NDEBUG T v key c) = Some c' →
          instances_ c' !! key = Some p
          ∧ typeHashes_ c' !! key = typeHashes_ c !! key.
Proof.
  intros Hk. split; [|split; [|split; [|intros c' Hafter; split]]].
  - unfold instances_insert. rewrite (insert_taken _ _ _ _ Hk).
    by destruct c.
  - intros [h Hh]. unfold typeHashes_insert.
    rewrite (insert_taken _ _ _ _ Hh). by destruct c.
  - by eapply registerInstance_taken.
  - rewrite (registerInstance_taken _ _ _ _ _ _ Hk) in Hafter.
    destruct NDEBUG; simpl in Hafter; by simplify_eq.
  - rewrite (registerInstance_taken _ _ _ _ _ _ Hk) in Hafter.
    destruct NDEBUG; simpl in Hafter; by simplify_eq.
Qed.

(** C10. The key is not looked at: under any string that no call has
    registered under, the empty string included, [registerInstance]
    returns, and [getInstance] and [findInstance] then return the value
    under that string. *)
Theorem any_string_is_a_key NDEBUG history c T (v : El T) (key : string) :
  run NDEBUG history empty_container = Some c →
  never_registered key history = true →
  let c' := with_instance NDEBUG T v key c in
  registerInstance NDEBUG T v key c = Returns tt c'
  ∧ getInstance NDEBUG T key c' = Returns v c'
  ∧ findInstance NDEBUG T key c' = Returns (Some v) c'.
Proof.
  intros Hrun Hnev c'.
  pose proof (never_registered_absent _ _ _ _ Hrun Hnev) as Hfree.
  split; [by apply registerInstance_free|].
  eapply lookups_after_registration; [|done].
  eapply run_consistent; [apply empty_consistent|done].
Qed.

(** C9. The lock discipline. [registerInstance] takes [mutex_] with a
    [std::unique_lock], [getInstance] and [findInstance] with a
    [std::shared_lock]. In every state that a schedule of threads reaches:
    a thread in the body of [registerInstance] is the only thread in any
    body; while it is there no waiting thread gets its lock, nor does a
    waiting [registerInstance] while a lookup is in its body; and a waiting
    lookup gets its lock at once when no registration is in its body,
    however many lookups are in theirs, and they all stay there. *)
Theorem one_writer_or_many_readers NDEBUG es σ :
  schedule NDEBUG es start = Some σ →
  (∀ T v key, lock_taken_by (Register T v key) = unique_lock)
  ∧ (∀ T key, lock_taken_by (Get T key) = shared_lock
              ∧ lock_taken_by (Find T key) = shared_lock)
  ∧ (∀ t1 t2 k, holds σ t1 unique_lock → holds σ t2 k → t2 = t1)
  ∧ (∀ t1 k t2 op,
       holds σ t1 k → threads σ !! t2 = Some (Blocked op) →
       k = unique_lock ∨ lock_taken_by op = unique_lock →
       step NDEBUG (Lock t2) σ = None)
  ∧ (∀ t op,
       threads σ !! t = Some (Blocked op) →
       lock_taken_by op = shared_lock →
       (∀ t', ¬ holds σ t' unique_lock) →
       ∃ σ', step NDEBUG (Lock t) σ = Some σ'
             ∧ holds σ' t shared_lock
             ∧ ∀ t', holds σ t' shared_lock → holds σ' t' shared_lock).
Proof.
  intros Hrun.
  pose proof (schedule_invariant _ _ _ _ start_invariant Hrun) as Hinv.
  split; [done|]. split; [done|]. split; [|split].
  - intros t1 t2 k. by apply writer_is_alone.
  - intros t1 k t2 op. by apply lock_waits.
  - intros t op. by apply reader_gets_in.
Qed.

End properties.

(** ** The operations on examples *)

(** The scenario of the bootstrap: every registration returns, the
    lookups give the registered values, and ["Z"] is found empty. *)
Example bootstrap_runs NDEBUG :
  run NDEBUG bootstrap empty_container = Some (booted NDEBUG).
Proof. by destruct NDEBUG; vm_compute. Qed.

Example bootstrap_lookups NDEBUG :
  findInstance NDEBUG cxx_int "A" (booted NDEBUG)
  = Returns (Some 1%Z) (booted NDEBUG)
  ∧ getInstance NDEBUG cxx_string "B" (booted NDEBUG)
    = Returns "x" (booted NDEBUG)
  ∧ findInstance NDEBUG cxx_bool "C" (booted NDEBUG)
    = Returns (Some true) (booted NDEBUG)
  ∧ findInstance NDEBUG cxx_int "Z" (booted NDEBUG)
    = Returns None (booted NDEBUG).
Proof. by destruct NDEBUG; vm_compute. Qed.

(** With [NDEBUG] nothing checks the type of a lookup: reading the
    [std::string] under ["B"] as an [int] is undefined behaviour. *)
Example unchecked_cast :
  getInstance true cxx_int "B" (booted true) = UndefinedBehaviour
  ∧ findInstance true cxx_int "B" (booted true) = UndefinedBehaviour.
Proof. by vm_compute. Qed.

(** The check compares hash codes: on a runtime whose hash codes are all
    equal it lets a lookup at another type through. *)
Example check_needs_distinct_hash_codes :
  @getInstance _ _ flat_types false cxx_int "B"
    (@with_instance _ flat_types false cxx_string "x" "B" empty_container)
  = UndefinedBehaviour.
Proof. by vm_compute. Qed.

Example three_callers_run NDEBUG :
  schedule NDEBUG three_callers start = Some one_lookup_inside.
Proof. by destruct NDEBUG; vm_compute. Qed.

(** A second lookup joins the first in its body, and the registration
    waits for both. *)
Example two_lookups_inside NDEBUG :
  ∃ σ, schedule NDEBUG (three_callers ++ [Lock 1]) start = Some σ
       ∧ holds σ 0 shared_lock ∧ holds σ 1 shared_lock
       ∧ step NDEBUG (Lock 2) σ = None.
Proof.
  eexists. split; [by destruct NDEBUG; vm_compute|].
  split; [|split]; [by eexists| by eexists |by vm_compute].
Qed.

(** ** The properties at concrete inputs *)

Lemma register_then_get_witness :
  run false bootstrap empty_container = Some (booted false)
  ∧ never_registered "D" bootstrap = true
  ∧ registerInstance false cxx_int 2%Z "D" (booted false)
    = Returns tt (with_instance false cxx_int 2%Z "D" (booted false))
  ∧ getInstance false cxx_int "D"
      (with_instance false cxx_int 2%Z "D" (booted false))
    = Returns 2%Z (with_instance false cxx_int 2%Z "D" (booted false)).
Proof.
  assert (run false bootstrap empty_container = Some (booted false)) as Hrun
    by (vm_compute; reflexivity).
  split; [exact Hrun|]. split; [reflexivity|].
  exact (register_then_get false bootstrap (booted false) cxx_int 2%Z "D"
           Hrun eq_refl).
Defined.

(** With [NDEBUG] the second registration under ["A"] returns: no fatal
    condition, and the container keeps the first value. *)
Lemma second_registration_returns :
  registerInstance true cxx_int 1%Z "A" empty_container
  = Returns tt (one_int true)
  ∧ registerInstance true cxx_int 2%Z "A" (one_int true)
    = Returns tt (one_int true)
  ∧ is_fatal (registerInstance true cxx_int 2%Z "A" (one_int true)) = false
  ∧ getInstance true cxx_int "A" (one_int true) = Returns 1%Z (one_int true).
Proof. by vm_compute. Qed.

Lemma second_registration_witness :
  registerInstance false cxx_int 1%Z "A" empty_container
  = Returns tt (one_int false)
  ∧ run false [Find cxx_int "A"] (one_int false) = Some (one_int false)
  ∧ registerInstance false cxx_string "y" "A" (one_int false)
    = AssertionFailed msg_already_had.
Proof.
  assert (registerInstance false cxx_int 1%Z "A" empty_container
          = Returns tt (one_int false)) as Hfirst by (vm_compute; reflexivity).
  assert (run false [Find cxx_int "A"] (one_int false)
          = Some (one_int false)) as Hlater by (vm_compute; reflexivity).
  split; [exact Hfirst|]. split; [exact Hlater|].
  exact (second_registration false cxx_int 1%Z "A" empty_container
           (one_int false) [Find cxx_int "A"] (one_int false)
           cxx_string "y" Hfirst Hlater).
Defined.

(** Two types, one hash code: on a runtime that gives [std::string] and
    [int] the same hash code, the [std::string] registered under ["B"] is
    looked up at [int] with assertions compiled in, and neither lookup fails
    an assertion. *)
Lemma lookup_at_another_type_unchecked :
  @registerInstance _ flat_types false cxx_string "x" "B" empty_container
  = Returns tt
      (@with_instance _ flat_types false cxx_string "x" "B" empty_container)
  ∧ cxx_string ≠ cxx_int
  ∧ is_fatal
      (@getInstance _ _ flat_types false cxx_int "B"
         (@with_instance _ flat_types false cxx_string "x" "B"
            empty_container)) = false
  ∧ is_fatal
      (@findInstance _ _ flat_types false cxx_int "B"
         (@with_instance _ flat_types false cxx_string "x" "B"
            empty_container)) = false.
Proof. by vm_compute. Qed.

Lemma lookup_at_another_type_witness :
  run false [] empty_container = Some empty_container
  ∧ registerInstance false cxx_int 1%Z "A" empty_container
    = Returns tt (one_int false)
  ∧ run false [Find cxx_int "A"] (one_int false) = Some (one_int false)
  ∧ hash_code cxx_int ≠ hash_code cxx_string
  ∧ getInstance false cxx_string "A" (one_int false)
    = AssertionFailed msg_different_type
  ∧ findInstance false cxx_string "A" (one_int false)
    = AssertionFailed msg_different_type.
Proof.
  assert (registerInstance false cxx_int 1%Z "A" empty_container
          = Returns tt (one_int false)) as Hreg by (vm_compute; reflexivity).
  assert (run false [Find cxx_int "A"] (one_int false)
          = Some (one_int false)) as Hlater by (vm_compute; reflexivity).
  assert (hash_code cxx_int ≠ hash_code cxx_string) as Hne
    by (vm_compute; discriminate).
  split; [reflexivity|]. split; [exact Hreg|]. split; [exact Hlater|].
  split; [exact Hne|].
  exact (lookup_at_another_type [] empty_container
           cxx_int 1%Z "A" (one_int false) [Find cxx_int "A"] (one_int false)
           cxx_string eq_refl Hreg Hlater Hne).
Defined.

(** With [NDEBUG] a [getInstance] of the key ["Z"], never registered,
    fails no assertion: [at] throws, and the container is still there. *)
Lemma get_never_registered_throws :
  run true bootstrap empty_container = Some (booted true)
  ∧ never_registered "Z" bootstrap = true
  ∧ getInstance true cxx_int "Z" (booted true)
    = Throws out_of_range (booted true)
  ∧ is_fatal (getInstance true cxx_int "Z" (booted true)) = false.
Proof. by vm_compute. Qed.

Lemma get_never_registered_witness :
  run false bootstrap empty_container = Some (booted false)
  ∧ never_registered "Z" bootstrap = true
  ∧ getInstance false cxx_int "Z" (booted false)
    = AssertionFailed msg_no_instance.
Proof.
  assert (run false bootstrap empty_container = Some (booted false)) as Hrun
    by (vm_compute; reflexivity).
  split; [exact Hrun|]. split; [reflexivity|].
  exact (get_never_registered false bootstrap (booted false) cxx_int "Z"
           Hrun eq_refl).
Defined.

Lemma find_never_registered_witness :
  run true bootstrap empty_container = Some (booted true)
  ∧ never_registered "Z" bootstrap = true
  ∧ findInstance true cxx_int "Z" (booted true) = Returns None (booted true).
Proof.
  assert (run true bootstrap empty_container = Some (booted true)) as Hrun
    by (vm_compute; reflexivity).
  split; [exact Hrun|]. split; [reflexivity|].
  exact (find_never_registered true bootstrap (booted true) cxx_int "Z"
           Hrun eq_refl).
Defined.

Lemma entries_are_final_witness :
  run true bootstrap empty_container = Some (booted true)
  ∧ instances_ (booted true) !! "B" = Some (make_shared cxx_string "x")
  ∧ run true [Register cxx_int 5%Z "B"; Get cxx_int "Z"; Find cxx_bool "C"]
      (booted true) = Some (booted true)
  ∧ (∃ T v, make_shared cxx_string "x" = make_shared T v
            ∧ In (Register T v "B") bootstrap)
  ∧ instances_ (booted true) !! "B" = Some (make_shared cxx_string "x").
Proof.
  assert (run true bootstrap empty_container = Some (booted true)) as Hrun
    by (vm_compute; reflexivity).
  assert (instances_ (booted true) !! "B"
          = Some (make_shared cxx_string "x")) as Hk
    by (vm_compute; reflexivity).
  assert (run true [Register cxx_int 5%Z "B"; Get cxx_int "Z";
                    Find cxx_bool "C"] (booted true)
          = Some (booted true)) as Hafter by (vm_compute; reflexivity).
  split; [exact Hrun|]. split; [exact Hk|]. split; [exact Hafter|].
  exact (entries_are_final true bootstrap (booted true) "B"
           (make_shared cxx_string "x") _ (booted true) Hrun Hk Hafter).
Defined.

Lemma first_registration_stays_witness :
  instances_ (one_int true) !! "A" = Some (make_shared cxx_int 1%Z)
  ∧ instances_insert "A" (make_shared cxx_string "y") (one_int true)
    = Returns tt (one_int true)
  ∧ (is_Some (typeHashes_ (one_int true) !! "A") →
     typeHashes_insert "A" (hash_code cxx_string) (one_int true)
     = Returns tt (one_int true))
  ∧ registerInstance true cxx_string "y" "A" (one_int true)
    = Returns tt (one_int true)
  ∧ ∀ c', state_after (registerInstance true cxx_string "y" "A" (one_int true))
          = Some c' →
          instances_ c' !! "A" = Some (make_shared cxx_int 1%Z)
          ∧ typeHashes_ c' !! "A" = typeHashes_ (one_int true) !! "A".
Proof.
  assert (instances_ (one_int true) !! "A"
          = Some (make_shared cxx_int 1%Z)) as Hk by (vm_compute; reflexivity).
  split; [exact Hk|].
  exact (first_registration_stays true (one_int true) "A"
           (make_shared cxx_int 1%Z) cxx_string "y" Hk).
Defined.

Lemma one_writer_or_many_readers_witness :
  schedule false three_callers start = Some one_lookup_inside
  ∧ step false (Lock 2) one_lookup_inside = None
  ∧ ∃ σ', step false (Lock 1) one_lookup_inside = Some σ'
          ∧ holds σ' 1 shared_lock
          ∧ ∀ t', holds one_lookup_inside t' shared_lock →
                  holds σ' t' shared_lock.
Proof.
  assert (schedule false three_callers start = Some one_lookup_inside)
    as Hrun by (vm_compute; reflexivity).
  destruct (one_writer_or_many_readers false three_callers
              one_lookup_inside Hrun) as (_ & _ & _ & Hwaits & Hjoins).
  split; [exact Hrun|]. split.
  - apply (Hwaits 0 shared_lock 2 (@Register _ cxx_types cxx_int 2%Z "D")).
    + exists (Find cxx_int "A"). split; reflexivity.
    + reflexivity.
    + right. reflexivity.
  - apply (Hjoins 1 (Get cxx_bool "C")).
    + reflexivity.
    + reflexivity.
    + intros t' (op & Ht' & Hk).
      unfold one_lookup_inside in Ht'. simpl in Ht'.
      apply lookup_insert_Some in Ht' as [[_ Ht']|[_ Ht']];
        [by simplify_eq|].
      apply lookup_insert_Some in Ht' as [[_ Ht']|[_ Ht']];
        [by simplify_eq|].
      apply lookup_singleton_Some in Ht' as [_ Ht']. by simplify_eq.
Defined.

Lemma any_string_is_a_key_witness :
  run true bootstrap empty_container = Some (booted true)
  ∧ never_registered "" bootstrap = true
  ∧ registerInstance true cxx_bool false "" (booted true)
    = Returns tt (with_instance true cxx_bool false "" (booted true))
  ∧ getInstance true cxx_bool ""
      (with_instance true cxx_bool false "" (booted true))
    = Returns false (with_instance true cxx_bool false "" (booted true))
  ∧ findInstance true cxx_bool ""
      (with_instance true cxx_bool false "" (booted true))
    = Returns (Some false) (with_instance true cxx_bool false "" (booted true)).
Proof.
  assert (run true bootstrap empty_container = Some (booted true)) as Hrun
    by (vm_compute; reflexivity).
  split; [exact Hrun|]. split; [reflexivity|].
  exact (any_string_is_a_key true bootstrap (booted true) cxx_bool false ""
           Hrun eq_refl).
Defined.


(** ** Further properties of the three operations *)

Section further_properties.
Context {type_info : Type} `{EqDecision type_info, InstanceTypes type_info}.

(** *** One call, case by case *)

Lemma exec_register NDEBUG T (v : El T) key c c' :
  exec NDEBUG (Register T v key) c = Some c' →
  (NDEBUG = true ∧ is_Some (instances_ c !! key) ∧ c' = c)
  ∨ (instances_ c !! key = None ∧ c' = with_instance NDEBUG T v key c).
Proof.
  simpl. intros Hex. destruct (instances_ c !! key) as [p|] eqn:Hk.
  - rewrite (registerInstance_taken _ _ _ _ _ _ Hk) in Hex.
    destruct NDEBUG; simpl in Hex; simplify_eq. left. eauto.
  - rewrite (registerInstance_free _ _ _ _ _ Hk) in Hex.
    simpl in Hex; simplify_eq. by right.
Qed.

Lemma exec_lookup NDEBUG op c c' :
  exec NDEBUG op c = Some c' →
  lock_taken_by op = shared_lock → c' = c.
Proof.
  destruct op as [T v key|T key|T key]; simpl; intros Hex Hk; [done| |].
  - eapply leaves_state_after; [apply getInstance_leaves|done].
  - eapply leaves_state_after; [apply findInstance_leaves|done].
Qed.

Lemma run_first_registered NDEBUG history c0 c key :
  run NDEBUG history c0 = Some c →
  instances_ c !! key
  = match instances_ c0 !! key with
    | Some p => Some p
    | None => first_registered key history
    end.
Proof.
  revert c0. induction history as [|op rest IH]; simpl; intros c0 Hrun.
  - simplify_eq. by destruct (instances_ c !! key).
  - destruct (exec NDEBUG op c0) as [c1|] eqn:Hex; [|done].
    rewrite (IH _ Hrun). destruct op as [T v key'|T key'|T key'].
    + destruct (exec_register _ _ _ _ _ _ Hex)
        as [(_ & [p Hp] & ->)|[Hfree ->]].
      * case_bool_decide as Hkey; [|done]. subst key'. by rewrite Hp.
      * simpl. case_bool_decide as Hkey.
        -- subst key'. by rewrite lookup_insert_eq, Hfree.
        -- by rewrite lookup_insert_ne.
    + by rewrite (exec_lookup _ _ _ _ Hex eq_refl).
    + by rewrite (exec_lookup _ _ _ _ Hex eq_refl).
Qed.





Lemma better_insert_other {V} (key key' : string) (v : V)
    (m : gmap string V) :
  key ≠ key' → better.insert key v m !! key' = m !! key'.
Proof.
  intros Hne. unfold better.insert.
  destruct (m !! key); [done|]. by rewrite lookup_insert_ne.
Qed.

Lemma better_insert_commute {V} (k1 k2 : string) (v1 v2 : V)
    (m : gmap string V) :
  k1 ≠ k2 →
  better.insert k2 v2 (better.insert k1 v1 m)
  = better.insert k1 v1 (better.insert k2 v2 m).
Proof.
  intros Hne. unfold better.insert.
  destruct (m !! k1) as [w1|] eqn:H1, (m !! k2) as [w2|] eqn:H2;
    rewrite ?H1, ?H2, ?lookup_insert_ne, ?H1, ?H2 by done; try done.
  by apply insert_insert_ne.
Qed.

Lemma exec_Register_eq NDEBUG T (v : El T) key c :
  exec NDEBUG (Register T v key) c
  = match instances_ c !! key with
    | None => Some (with_instance NDEBUG T v key c)
    | Some _ => if NDEBUG then Some c else None
    end.
Proof.
  simpl. destruct (instances_ c !! key) as [p|] eqn:Hk.
  - rewrite (registerInstance_taken _ _ _ _ _ _ Hk). by destruct NDEBUG.
  - by rewrite (registerInstance_free _ _ _ _ _ Hk).
Qed.

Lemma with_instance_commute NDEBUG T1 (v1 : El T1) k1 T2 (v2 : El T2) k2 c :
  k1 ≠ k2 →
  with_instance NDEBUG T2 v2 k2 (with_instance NDEBUG T1 v1 k1 c)
  = with_instance NDEBUG T1 v1 k1 (with_instance NDEBUG T2 v2 k2 c).
Proof.
  intros Hne. unfold with_instance; simpl. f_equal.
  - by apply insert_insert_ne.
  - destruct NDEBUG; [done|]. by apply better_insert_commute.
Qed.

(** A lookup under [key] reads the two maps at [key] and nowhere else. *)
Lemma cast_outcome (T : type_info) (p : shared_ptr_void) c1 c2 :
  outcome (static_pointer_cast_deref T p c1)
  = outcome (static_pointer_cast_deref T p c2).
Proof.
  unfold static_pointer_cast_deref.
  by destruct (decide (pointee_type p = T)).
Qed.

Lemma getInstance_local NDEBUG T key c1 c2 :
  instances_ c1 !! key = instances_ c2 !! key →
  typeHashes_ c1 !! key = typeHashes_ c2 !! key →
  outcome (getInstance NDEBUG T key c1) = outcome (getInstance NDEBUG T key c2).
Proof.
  intros Hi Ht.
  unfold getInstance, assert, M.bind, M.ret, M.abort,
    instances_find, instances_at, typeHashes_at, better.find, better.at_.
  destruct NDEBUG; simpl; rewrite Hi.
  - destruct (instances_ c2 !! key) as [p|]; simpl; [|done].
    apply cast_outcome.
  - destruct (instances_ c2 !! key) as [p|] eqn:Hk; simpl; [|done].
    rewrite Ht. destruct (typeHashes_ c2 !! key) as [h|]; simpl; [|done].
    destruct (N.eqb h (hash_code T)); simpl; [|done].
    rewrite Hi, Hk. apply cast_outcome.
Qed.

Lemma findInstance_local NDEBUG T key c1 c2 :
  instances_ c1 !! key = instances_ c2 !! key →
  typeHashes_ c1 !! key = typeHashes_ c2 !! key →
  outcome (findInstance NDEBUG T key c1)
  = outcome (findInstance NDEBUG T key c2).
Proof.
  intros Hi Ht.
  unfold findInstance, assert, M.bind, M.ret, M.abort,
    instances_find, typeHashes_at, better.find, better.at_.
  rewrite Hi. destruct (instances_ c2 !! key) as [p|]; simpl; [|done].
  destruct NDEBUG; simpl.
  - pose proof (cast_outcome T p c1 c2) as Hcast.
    by destruct (static_pointer_cast_deref T p c1),
      (static_pointer_cast_deref T p c2); simplify_eq.
  - rewrite Ht. destruct (typeHashes_ c2 !! key) as [h|]; simpl; [|done].
    destruct (N.eqb h (hash_code T)); simpl; [|done].
    pose proof (cast_outcome T p c1 c2) as Hcast.
    by destruct (static_pointer_cast_deref T p c1),
      (static_pointer_cast_deref T p c2); simplify_eq.
Qed.

Lemma run_registered_once history c0 c :
  run false history c0 = Some c →
  NoDup (registered_keys history)
  ∧ ∀ key, key ∈ registered_keys history → instances_ c0 !! key = None.
Proof.
  revert c0. induction history as [|op rest IH]; simpl; intros c0 Hrun.
  - split; [constructor|]. intros key Hin. by apply elem_of_nil in Hin.
  - destruct (exec false op c0) as [c1|] eqn:Hex; [|done].
    destruct (IH _ Hrun) as [Hnodup Hfree].
    destruct op as [T v key'|T key'|T key'].
    + destruct (exec_register _ _ _ _ _ _ Hex)
        as [(? & _)|[Hfree0 ->]]; [done|].
      split.
      * apply NoDup_cons. split; [|done]. intros Hin.
        specialize (Hfree _ Hin). simpl in Hfree.
        by rewrite lookup_insert_eq in Hfree.
      * intros key [->|Hin]%elem_of_cons; [done|].
        specialize (Hfree _ Hin). simpl in Hfree.
        destruct (decide (key' = key)) as [->|Hne].
        -- by rewrite lookup_insert_eq in Hfree.
        -- by rewrite lookup_insert_ne in Hfree.
    + rewrite (exec_lookup _ _ _ _ Hex eq_refl) in Hfree. done.
    + rewrite (exec_lookup _ _ _ _ Hex eq_refl) in Hfree. done.
Qed.

Lemma run_typeHashes_untouched history c0 c :
  run true history c0 = Some c → typeHashes_ c = typeHashes_ c0.
Proof.
  revert c0. induction history as [|op rest IH]; simpl; intros c0 Hrun.
  - by simplify_eq.
  - destruct (exec true op c0) as [c1|] eqn:Hex; [|done].
    rewrite (IH _ Hrun).
    by destruct (exec_cases _ _ _ _ Hex) as [->|(T & v & key & _ & _ & ->)].
Qed.

(** *** The lock is given back *)

Lemma start_owners : owners_are_inside start.
Proof.
  split; simpl; [intros t Ht|done]. by apply not_elem_of_empty in Ht.
Qed.

Lemma holds_insert σ t t0 k ph c m :
  holds σ t0 k → t ≠ t0 →
  holds {| container := c; mutex_ := m;
           threads := <[t := ph]> (threads σ) |} t0 k.
Proof.
  intros (op & Ht0 & Hk) Hne. exists op. split; [|done]. simpl.
  by rewrite lookup_insert_ne.
Qed.

Lemma holds_delete σ t t0 k c m :
  holds σ t0 k → t ≠ t0 →
  holds {| container := c; mutex_ := m;
           threads := delete t (threads σ) |} t0 k.
Proof.
  intros (op & Ht0 & Hk) Hne. exists op. split; [|done]. simpl.
  by rewrite lookup_delete_ne.
Qed.

Lemma holds_thread σ t k op :
  holds σ t k → threads σ !! t = Some (Holding op) → lock_taken_by op = k.
Proof. intros (op' & Ht & Hk) Hop. by simplify_eq. Qed.

Lemma step_owners NDEBUG e σ σ' :
  owners_are_inside σ → step NDEBUG e σ = Some σ' → owners_are_inside σ'.
Proof.
  intros [Hsh Hex] Hstep. destruct e as [t op|t|t]; simpl in Hstep.
  - destruct (threads σ !! t) as [ph|] eqn:Ht; [done|]. simplify_eq.
    split; simpl; intros t0 Ht0.
    + apply holds_insert; [by apply Hsh|]. intros ->.
      destruct (Hsh _ Ht0) as (op0 & Hop0 & _). congruence.
    + apply holds_insert; [by apply Hex|]. intros ->.
      destruct (Hex _ Ht0) as (op0 & Hop0 & _). congruence.
  - destruct (threads σ !! t) as [[op|op]|] eqn:Ht; try done.
    destruct (acquire (lock_taken_by op) t (mutex_ σ)) as [m|] eqn:Hacq;
      [|done].
    simplify_eq. unfold acquire in Hacq.
    destruct (exclusive_owner (mutex_ σ)) as [tx|] eqn:Hx;
      [by destruct (lock_taken_by op)|].
    destruct (lock_taken_by op) eqn:Hk.
    + destruct (decide (shared_owners (mutex_ σ) = ∅)); [|done].
      simplify_eq. split; simpl.
      * intros t0 Ht0. by apply not_elem_of_empty in Ht0.
      * intros t0 [= <-]. exists op. simpl. by rewrite lookup_insert_eq.
    + simplify_eq. split; simpl; [|done].
      intros t0 [Ht0%elem_of_singleton|Ht0]%elem_of_union.
      * subst t0. exists op. simpl. by rewrite lookup_insert_eq.
      * apply holds_insert; [by apply Hsh|]. intros ->.
        destruct (Hsh _ Ht0) as (op0 & Hop0 & _). congruence.
  - destruct (threads σ !! t) as [[op|op]|] eqn:Ht; try done.
    destruct (exec NDEBUG op (container σ)) as [c|]; [|done].
    simplify_eq. split; simpl.
    + intros t0 Ht0.
      assert (t0 ∈ shared_owners (mutex_ σ) ∧ (t = t0 → lock_taken_by op = unique_lock))
        as [Hin Hkind].
      { destruct (lock_taken_by op); simpl in Ht0; [done|].
        apply elem_of_difference in Ht0 as [Hin Hnot].
        split; [done|]. intros ->. destruct Hnot. by apply elem_of_singleton. }
      apply holds_delete; [by apply Hsh|]. intros ->.
      pose proof (holds_thread _ _ _ _ (Hsh _ Hin) Ht) as Hk.
      rewrite (Hkind eq_refl) in Hk. done.
    + intros t0 Ht0.
      assert (exclusive_owner (mutex_ σ) = Some t0
              ∧ lock_taken_by op = shared_lock) as [Hx Hkind]
        by (by destruct (lock_taken_by op)).
      apply holds_delete; [by apply Hex|]. intros ->.
      pose proof (holds_thread _ _ _ _ (Hex _ Hx) Ht) as Hk. congruence.
Qed.

Lemma schedule_owners NDEBUG es σ σ' :
  owners_are_inside σ → schedule NDEBUG es σ = Some σ' →
  owners_are_inside σ'.
Proof.
  revert σ. induction es as [|e rest IH]; simpl; intros σ Hinv Hrun.
  - by simplify_eq.
  - destruct (step NDEBUG e σ) as [σ1|] eqn:Hstep; [|done].
    eapply IH; [|done]. by eapply step_owners.
Qed.

(** ** Properties beyond the claims *)

(** X1. On a key that has an instance, [findInstance<T>] is
    [getInstance<T>] with its value wrapped in an optional: same value, same
    assertion failure, same undefined behaviour, in both build modes and
    whatever [typeHashes_] holds. *)
Theorem find_is_get_when_present NDEBUG T key c :
  is_Some (instances_ c !! key) →
  findInstance NDEBUG T key c
  = (v <- getInstance NDEBUG T key ;; M.ret (Some v)) c.
Proof.
  intros [p Hk].
  unfold findInstance, getInstance, assert, M.bind, M.ret, M.abort,
    instances_find, instances_at, typeHashes_at, better.find, better.at_.
  rewrite Hk. destruct NDEBUG; simpl; rewrite ?Hk; [done|].
  destruct (typeHashes_ c !! key) as [h|] eqn:Hh; simpl; rewrite ?Hh; simpl;
    [|done].
  destruct (N.eqb h (hash_code T)); simpl; [|done].
  by rewrite Hk.
Qed.


(** X3. The entries of [instances_] after a history of calls on an empty
    container: under each key the instance of the first registration under
    that key, and nothing under a key without registration, in both build
    modes. *)
Theorem instances_of_history NDEBUG history c key :
  run NDEBUG history empty_container = Some c →
  instances_ c !! key = first_registered key history.
Proof.
  intros Hrun. rewrite (run_first_registered _ _ _ _ key Hrun).
  simpl. by rewrite lookup_empty.
Qed.

(** X4. With assertions compiled in, a history of calls that runs to its
    end has registered under each key at most once, and [instances_] has
    as many entries as the history has registrations. *)
Theorem registered_at_most_once history c :
  run false history empty_container = Some c →
  NoDup (registered_keys history)
  ∧ dom (instances_ c) = list_to_set (registered_keys history)
  ∧ size (instances_ c) = length (registered_keys history).
Proof.
  intros Hrun.
  assert (NoDup (registered_keys history)) as Hnodup
    by by eapply run_registered_once.
  assert (dom (instances_ c) = list_to_set (registered_keys history)) as Hdom.
  { apply set_eq. intros key. rewrite elem_of_dom, elem_of_list_to_set.
    rewrite (run_first_registered _ _ _ _ key Hrun). simpl.
    rewrite lookup_empty. clear Hrun Hnodup.
    induction history as [|[T v key'|T key'|T key'] rest IH]; simpl;
      rewrite ?elem_of_nil, ?elem_of_cons; [by rewrite is_Some_alt| |done|done].
    case_bool_decide as Hkey.
    - subst key'. split; [by left|by eexists].
    - rewrite IH. split; [by right|]. intros [->|Hin]; done. }
  split; [done|]. split; [done|].
  rewrite <- (size_dom (D:=gset string)), Hdom. by apply size_list_to_set.
Qed.

(** X5. The type tags: with assertions compiled in, after a history of
    calls on an empty container [typeHashes_] has exactly the keys of
    [instances_], each with the hash code of the type of its instance; with
    [NDEBUG] no call writes [typeHashes_]. *)
Theorem type_tags_follow_instances NDEBUG history c :
  run NDEBUG history empty_container = Some c →
  if NDEBUG then typeHashes_ c = ∅
  else dom (typeHashes_ c) = dom (instances_ c)
       ∧ ∀ key p, instances_ c !! key = Some p →
                  typeHashes_ c !! key = Some (hash_code (pointee_type p)).
Proof.
  intros Hrun. destruct NDEBUG.
  - by rewrite (run_typeHashes_untouched _ _ _ Hrun).
  - pose proof (run_consistent _ _ _ _ (empty_consistent false) Hrun) as Hc.
    simpl in Hc. split.
    + apply set_eq. intros key. rewrite !elem_of_dom, Hc.
      by rewrite fmap_is_Some.
    + intros key p Hk. by rewrite Hc, Hk.
Qed.

(** X6. Registrations under different keys commute: in either order they
    leave the same container, or fail the same way, whatever the
    container and the build mode. *)
Theorem registrations_commute NDEBUG T1 (v1 : El T1) k1 T2 (v2 : El T2) k2 c :
  k1 ≠ k2 →
  run NDEBUG [Register T1 v1 k1; Register T2 v2 k2] c
  = run NDEBUG [Register T2 v2 k2; Register T1 v1 k1] c.
Proof.
  intros Hne. cbn [run]. rewrite !exec_Register_eq.
  destruct (instances_ c !! k1) as [p1|] eqn:H1,
           (instances_ c !! k2) as [p2|] eqn:H2.
  - destruct NDEBUG; [|done]. by rewrite !exec_Register_eq, H1, H2.
  - destruct NDEBUG.
    + rewrite !exec_Register_eq, H2. simpl.
      by rewrite lookup_insert_ne, H1.
    + rewrite exec_Register_eq. simpl. by rewrite lookup_insert_ne, H1.
  - destruct NDEBUG.
    + rewrite !exec_Register_eq, H1. simpl.
      by rewrite lookup_insert_ne, H2.
    + rewrite exec_Register_eq. simpl. by rewrite lookup_insert_ne, H2.
  - rewrite !exec_Register_eq. simpl.
    rewrite !lookup_insert_ne, H1, H2 by done.
    by rewrite with_instance_commute.
Qed.

(** X7. A registration is local to its key: the lookups under every other
    key give, after it, what they gave before. *)
Theorem registration_is_local NDEBUG T (v : El T) key c c' T' key' :
  registerInstance NDEBUG T v key c = Returns tt c' →
  key' ≠ key →
  outcome (getInstance NDEBUG T' key' c')
  = outcome (getInstance NDEBUG T' key' c)
  ∧ outcome (findInstance NDEBUG T' key' c')
    = outcome (findInstance NDEBUG T' key' c).
Proof.
  intros Hreg Hne.
  assert (instances_ c' !! key' = instances_ c !! key'
          ∧ typeHashes_ c' !! key' = typeHashes_ c !! key') as [Hi Ht].
  { destruct (instances_ c !! key) as [p|] eqn:Hk.
    - rewrite (registerInstance_taken _ _ _ _ _ _ Hk) in Hreg.
      destruct NDEBUG; by simplify_eq.
    - rewrite (registerInstance_free _ _ _ _ _ Hk) in Hreg. simplify_eq.
      simpl. rewrite lookup_insert_ne by done. split; [done|].
      destruct NDEBUG; [done|]. by apply better_insert_other. }
  split; [by apply getInstance_local|by apply findInstance_local].
Qed.

(** X8. The [at] of the maps: after a history of calls on an empty
    container, [getInstance] ends with the [std::out_of_range] of [at]
    exactly when [NDEBUG] is defined and the key has no instance, and
    [findInstance] never does; with assertions compiled in
    [typeHashes_.at(key)] always finds its key. *)
Theorem at_throws_exactly_when NDEBUG history c T key :
  run NDEBUG history empty_container = Some c →
  (getInstance NDEBUG T key c = Throws out_of_range c
   ↔ NDEBUG = true ∧ instances_ c !! key = None)
  ∧ ∀ c', findInstance NDEBUG T key c ≠ Throws out_of_range c'.
Proof.
  intros Hrun.
  pose proof (run_consistent _ _ _ _ (empty_consistent NDEBUG) Hrun) as Hc.
  destruct (instances_ c !! key) as [p|] eqn:Hk.
  - rewrite (findInstance_present _ _ _ _ _ Hc Hk),
      (getInstance_present _ _ _ _ _ Hc Hk).
    destruct (NDEBUG || _); unfold M.bind.
    + destruct (cast_leaves T p c) as [[w ->]| ->]; simpl;
        (split; [split; [done|by intros [_ ?]]|done]).
    + split; [split; [done|by intros [_ ?]]|done].
  - rewrite (findInstance_absent _ _ _ _ Hk), (getInstance_absent _ _ _ _ Hk).
    destruct NDEBUG; (split; [split; [done|]|done]); by intros [? _].
Qed.

(** X10. The assertions, with assertions compiled in, after a history of
    calls on an empty container: [registerInstance] fails "already had
    instance" exactly when the key has an instance; [getInstance] fails
    "doesn't have an instance" exactly when the key has none; and
    [getInstance] and [findInstance] fail "stores an instance of different
    type" exactly when the key has an instance of a type whose hash code is
    not that of [T]. *)
Theorem assertions_fail_exactly_when history c T (v : El T) key :
  run false history empty_container = Some c →
  (registerInstance false T v key c = AssertionFailed msg_already_had
   ↔ is_Some (instances_ c !! key))
  ∧ (getInstance false T key c = AssertionFailed msg_no_instance
     ↔ instances_ c !! key = None)
  ∧ (getInstance false T key c = AssertionFailed msg_different_type
     ↔ ∃ p, instances_ c !! key = Some p
            ∧ hash_code (pointee_type p) ≠ hash_code T)
  ∧ (findInstance false T key c = AssertionFailed msg_different_type
     ↔ ∃ p, instances_ c !! key = Some p
            ∧ hash_code (pointee_type p) ≠ hash_code T).
Proof.
  intros Hrun.
  pose proof (run_consistent _ _ _ _ (empty_consistent false) Hrun) as Hc.
  destruct (instances_ c !! key) as [p|] eqn:Hk.
  - rewrite (registerInstance_taken _ _ _ _ _ _ Hk),
      (findInstance_present _ _ _ _ _ Hc Hk),
      (getInstance_present _ _ _ _ _ Hc Hk). simpl. unfold M.bind.
    destruct (N.eqb_spec (hash_code (pointee_type p)) (hash_code T))
      as [Heq|Hneq].
    + destruct (cast_leaves T p c) as [[w ->]| ->];
        (split; [by eauto|]); (split; [done|]); split;
        (split; [done|]); intros (p' & [= <-] & Hne); done.
    + split; [by eauto|]. split; [done|].
      split; (split; [|done]); intros _; by exists p.
  - rewrite (registerInstance_free _ _ _ _ _ Hk),
      (findInstance_absent _ _ _ _ Hk), (getInstance_absent _ _ _ _ Hk).
    split; [split; [done|by intros [? ?]]|]. split; [done|].
    split; (split; [done|]); by intros (? & ? & _).
Qed.

(** X11. The lock is given back: in every state that a schedule of
    threads reaches, the owners of [mutex_] are exactly the threads in the
    body of a call, each in the way of the lock its call took; so when no
    thread is in a body the mutex is free and every waiting call gets its
    lock. *)
Theorem lock_is_given_back NDEBUG es σ :
  schedule NDEBUG es start = Some σ →
  (∀ t, t ∈ shared_owners (mutex_ σ) ↔ holds σ t shared_lock)
  ∧ (∀ t, exclusive_owner (mutex_ σ) = Some t ↔ holds σ t unique_lock)
  ∧ ((∀ t k, ¬ holds σ t k) →
     mutex_ σ = unowned
     ∧ ∀ t op, threads σ !! t = Some (Blocked op) →
               is_Some (step NDEBUG (Lock t) σ)).
Proof.
  intros Hrun.
  destruct (schedule_invariant _ _ _ _ start_invariant Hrun) as [Hown _].
  destruct (schedule_owners _ _ _ _ start_owners Hrun) as [Hsh Hex].
  split; [|split].
  - intros t. split; [apply Hsh|].
    intros (op & Ht & Hk). specialize (Hown _ _ Ht). by rewrite Hk in Hown.
  - intros t. split; [apply Hex|].
    intros (op & Ht & Hk). specialize (Hown _ _ Ht). by rewrite Hk in Hown.
  - intros Hnone.
    assert (mutex_ σ = unowned) as Hfree.
    { destruct (mutex_ σ) as [x sh] eqn:Hm. simpl in *. unfold unowned.
      f_equal.
      - destruct x as [t|]; [|done]. by destruct (Hnone t unique_lock); auto.
      - apply set_eq. intros t. split; [|by intros ?%not_elem_of_empty].
        intros Hin. by destruct (Hnone t shared_lock); auto. }
    split; [done|]. intros t op Ht. simpl. rewrite Ht, Hfree.
    unfold acquire, unowned. simpl.
    destruct (lock_taken_by op); [|by eexists].
    destruct (decide (∅ = ∅)) as [_|Hne]; [by eexists|done].
Qed.

End further_properties.

(** ** The further properties at concrete inputs *)

Lemma find_is_get_when_present_witness :
  is_Some (instances_ (booted true) !! "B")
  ∧ findInstance true cxx_string "B" (booted true)
    = (v <- getInstance true cxx_string "B" ;; M.ret (Some v)) (booted true).
Proof.
  assert (is_Some (instances_ (booted true) !! "B")) as Hk
    by (eexists; vm_compute; reflexivity).
  split; [exact Hk|].
  exact (find_is_get_when_present true cxx_string "B" (booted true) Hk).
Defined.


Lemma instances_of_history_witness :
  run true client empty_container = Some (booted true)
  ∧ instances_ (booted true) !! "A" = first_registered "A" client.
Proof.
  assert (run true client empty_container = Some (booted true)) as Hrun
    by (vm_compute; reflexivity).
  split; [exact Hrun|].
  exact (instances_of_history true client (booted true) "A" Hrun).
Defined.

Lemma registered_at_most_once_witness :
  run false bootstrap empty_container = Some (booted false)
  ∧ NoDup (registered_keys bootstrap)
  ∧ dom (instances_ (booted false)) = list_to_set (registered_keys bootstrap)
  ∧ size (instances_ (booted false)) = length (registered_keys bootstrap).
Proof.
  assert (run false bootstrap empty_container = Some (booted false)) as Hrun
    by (vm_compute; reflexivity).
  split; [exact Hrun|].
  exact (registered_at_most_once bootstrap (booted false) Hrun).
Defined.

Lemma type_tags_follow_instances_witness :
  run false bootstrap empty_container = Some (booted false)
  ∧ dom (typeHashes_ (booted false)) = dom (instances_ (booted false))
  ∧ ∀ key p, instances_ (booted false) !! key = Some p →
             typeHashes_ (booted false) !! key
             = Some (hash_code (pointee_type p)).
Proof.
  assert (run false bootstrap empty_container = Some (booted false)) as Hrun
    by (vm_compute; reflexivity).
  split; [exact Hrun|].
  exact (type_tags_follow_instances false bootstrap (booted false) Hrun).
Defined.

Lemma registrations_commute_witness :
  "A" ≠ "B"
  ∧ run false [Register cxx_int 1%Z "A"; Register cxx_string "x" "B"]
      empty_container
    = run false [Register cxx_string "x" "B"; Register cxx_int 1%Z "A"]
        empty_container.
Proof.
  assert ("A" ≠ "B") as Hne by discriminate.
  split; [exact Hne|].
  exact (registrations_commute false cxx_int _ "A" cxx_string _ "B"
           empty_container Hne).
Defined.

Lemma registration_is_local_witness :
  registerInstance false cxx_int 2%Z "D" (booted false)
  = Returns tt (with_instance false cxx_int 2%Z "D" (booted false))
  ∧ "B" ≠ "D"
  ∧ outcome (getInstance false cxx_string "B"
               (with_instance false cxx_int 2%Z "D" (booted false)))
    = outcome (getInstance false cxx_string "B" (booted false))
  ∧ outcome (findInstance false cxx_string "B"
               (with_instance false cxx_int 2%Z "D" (booted false)))
    = outcome (findInstance false cxx_string "B" (booted false)).
Proof.
  assert (registerInstance false cxx_int 2%Z "D" (booted false)
          = Returns tt (with_instance false cxx_int 2%Z "D" (booted false)))
    as Hreg by (vm_compute; reflexivity).
  assert ("B" ≠ "D") as Hne by discriminate.
  split; [exact Hreg|]. split; [exact Hne|].
  exact (registration_is_local false cxx_int _ "D" (booted false) _
           cxx_string "B" Hreg Hne).
Defined.

Lemma at_throws_exactly_when_witness :
  run false bootstrap empty_container = Some (booted false)
  ∧ (getInstance false cxx_int "B" (booted false)
     = Throws out_of_range (booted false)
     ↔ false = true ∧ instances_ (booted false) !! "B" = None)
  ∧ ∀ c', findInstance false cxx_int "B" (booted false)
          ≠ Throws out_of_range c'.
Proof.
  assert (run false bootstrap empty_container = Some (booted false)) as Hrun
    by (vm_compute; reflexivity).
  split; [exact Hrun|].
  exact (at_throws_exactly_when false bootstrap (booted false) cxx_int "B"
           Hrun).
Defined.

Lemma assertions_fail_exactly_when_witness :
  run false bootstrap empty_container = Some (booted false)
  ∧ (registerInstance false cxx_int 7%Z "B" (booted false)
     = AssertionFailed msg_already_had
     ↔ is_Some (instances_ (booted false) !! "B"))
  ∧ (getInstance false cxx_int "B" (booted false)
     = AssertionFailed msg_no_instance
     ↔ instances_ (booted false) !! "B" = None)
  ∧ (getInstance false cxx_int "B" (booted false)
     = AssertionFailed msg_different_type
     ↔ ∃ p, instances_ (booted false) !! "B" = Some p
            ∧ hash_code (pointee_type p) ≠ hash_code cxx_int)
  ∧ (findInstance false cxx_int "B" (booted false)
     = AssertionFailed msg_different_type
     ↔ ∃ p, instances_ (booted false) !! "B" = Some p
            ∧ hash_code (pointee_type p) ≠ hash_code cxx_int).
Proof.
  assert (run false bootstrap empty_container = Some (booted false)) as Hrun
    by (vm_compute; reflexivity).
  split; [exact Hrun|].
  exact (assertions_fail_exactly_when bootstrap (booted false) cxx_int 7%Z "B"
           Hrun).
Defined.

Lemma lock_is_given_back_witness :
  schedule false lookup_left start = Some two_waiting
  ∧ (∀ t k, ¬ holds two_waiting t k)
  ∧ mutex_ two_waiting = unowned
  ∧ ∀ t op, threads two_waiting !! t = Some (Blocked op) →
            is_Some (step false (Lock t) two_waiting).
Proof.
  assert (schedule false lookup_left start = Some two_waiting)
    as Hrun by (vm_compute; reflexivity).
  assert (∀ t k, ¬ holds two_waiting t k) as Hnone.
  { intros t k (op & Ht & _). unfold two_waiting in Ht. simpl in Ht.
    apply lookup_insert_Some in Ht as [[_ Ht]|[_ Ht]]; [by simplify_eq|].
    apply lookup_singleton_Some in Ht as [_ Ht]. by simplify_eq. }
  split; [exact Hrun|]. split; [exact Hnone|].
  exact (proj2 (proj2 (lock_is_given_back false lookup_left two_waiting Hrun))
           Hnone).
Defined.
